(** * web/serve.py: static file server with cross-origin isolation headers

    A shallow embedding of [web/serve.py].  The script subclasses
    [http.server.SimpleHTTPRequestHandler], overriding [end_headers] and
    [guess_type], and its [__main__] block reads the port and the bind
    address from [sys.argv], builds an [http.server.HTTPServer] and runs
    [serve_forever] until a [KeyboardInterrupt].

    The methods of the Python standard library that the script calls
    ([str.endswith], [int], [send_header], the inherited [end_headers] and
    [guess_type], [HTTPServer(...)], [serve_forever], [shutdown]) are
    embedded next to it from CPython 3.11 ([Lib/http/server.py],
    [Lib/socketserver.py], [Lib/mimetypes.py], [Lib/genericpath.py],
    [Objects/longobject.c]); each such definition names the function it
    follows.  A Python [str] is a [string] whose characters are the code
    points below 256. *)

From Stdlib Require Import String Ascii List ZArith Lia Bool PeanoNat.
From Stdlib Require Import DecimalString.
Import ListNotations.
Local Open Scope string_scope.

(** ** Python strings *)

Module PyStr.

(** [s.endswith(suffix)]: the last [len(suffix)] characters of [s] are
    compared with [suffix]; a suffix longer than [s] never matches. *)
Definition endswith (s suffix : string) : bool :=
  let n := String.length s in
  let m := String.length suffix in
  if (m <=? n)%nat
  then String.eqb (substring (n - m) m s) suffix
  else false.

(** [c.lower()] on a code point below 256: A-Z and the Latin-1 capitals
    (U+00C0-U+00DE without the multiplication sign U+00D7) move up by 32. *)
Definition lower_char (c : ascii) : ascii :=
  let n := nat_of_ascii c in
  if ((65 <=? n) && (n <=? 90))%nat then ascii_of_nat (n + 32)
  else if ((192 <=? n) && (n <=? 222) && negb (n =? 215))%nat
       then ascii_of_nat (n + 32)
       else c.

Fixpoint lower (s : string) : string :=
  match s with
  | EmptyString => EmptyString
  | String c s' => String (lower_char c) (lower s')
  end.

(** [str(n)] for an [int]. *)
Definition str_of_int (n : Z) : string :=
  NilZero.string_of_int (Z.to_int n).

(** *** [int(s)] for a [str] ([PyLong_FromUnicodeObject] in base 10) *)

(** White space that [int] skips at both ends: the ASCII white space of
    [Py_ISSPACE], and U+0085 and U+00A0, which are turned into a space
    before parsing. *)
Definition is_space (c : ascii) : bool :=
  let n := nat_of_ascii c in
  ((9 <=? n) && (n <=? 13) || (n =? 32) || (n =? 133) || (n =? 160))%nat.

Definition digit_value (c : ascii) : option Z :=
  let n := nat_of_ascii c in
  if ((48 <=? n) && (n <=? 57))%nat then Some (Z.of_nat (n - 48)) else None.

Fixpoint skip_space (s : list ascii) : list ascii :=
  match s with
  | c :: t => if is_space c then skip_space t else s
  | [] => []
  end.

(** The digit scan: decimal digits, any two of them separated by at most
    one underscore.  It returns the value, the number of digits and the
    unread rest; two underscores in a row or a last underscore are errors. *)
Fixpoint scan_digits (prev_underscore : bool) (acc : Z) (digits : nat)
         (s : list ascii) : option (Z * nat * list ascii) :=
  match s with
  | [] => if prev_underscore then None else Some (acc, digits, [])
  | c :: t =>
      if Ascii.eqb c "_" then
        if prev_underscore then None else scan_digits true acc digits t
      else
        match digit_value c with
        | Some d => scan_digits false (10 * acc + d) (S digits) t
        | None => if prev_underscore then None else Some (acc, digits, s)
        end
  end.

(** Below this many digits the length limit is not looked at. *)
Definition MAX_STR_DIGITS_THRESHOLD : nat := 640.

(** [int(s)].  [max_str_digits] is the interpreter's
    [sys.get_int_max_str_digits()] (4300 unless configured; 0 switches the
    limit off).  [None] stands for [ValueError]. *)
Definition int (max_str_digits : nat) (s : string) : option Z :=
  let s1 := skip_space (list_ascii_of_string s) in
  let '(negative, s2) :=
    match s1 with
    | c :: t =>
        if Ascii.eqb c "+" then (false, t)
        else if Ascii.eqb c "-" then (true, t)
        else (false, s1)
    | [] => (false, s1)
    end in
  match s2 with
  | c :: _ =>
      if Ascii.eqb c "_" then None
      else
        match scan_digits false 0 0 s2 with
        | None => None
        | Some (v, digits, rest) =>
            if (digits =? 0)%nat then None
            else if ((MAX_STR_DIGITS_THRESHOLD <? digits)
                     && (0 <? max_str_digits)
                     && (max_str_digits <? digits))%nat then None
            else
              match skip_space rest with
              | [] => Some (if negative then (- v)%Z else v)
              | _ :: _ => None
              end
        end
  | [] => None
  end.

(** [s.find(c)] and [s.rfind(c)] for a one-character [c]: the first and the
    last index of [c] in [s], or -1. *)
Fixpoint find (c : ascii) (s : string) : Z :=
  match s with
  | EmptyString => (-1)%Z
  | String d t =>
      if Ascii.eqb d c then 0%Z
      else let r := find c t in if (r <? 0)%Z then (-1)%Z else (r + 1)%Z
  end.

Fixpoint rfind (c : ascii) (s : string) : Z :=
  match s with
  | EmptyString => (-1)%Z
  | String d t =>
      let r := rfind c t in
      if (0 <=? r)%Z then (r + 1)%Z
      else if Ascii.eqb d c then 0%Z else (-1)%Z
  end.

(** The slices [s[:i]] and [s[i:]] for an index [i] that is not negative. *)
Definition upto (i : Z) (s : string) : string :=
  substring 0 (Z.to_nat i) s.

Definition from (i : Z) (s : string) : string :=
  substring (Z.to_nat i) (String.length s - Z.to_nat i) s.

End PyStr.

(** ** The inherited request handler

    [http.server.BaseHTTPRequestHandler]: the header protocol that the
    script's [end_headers] is written against.  Logging to [stderr]
    ([log_request], [log_error]) is left out: it writes nothing to the
    client. *)

Module BaseHTTPRequestHandler.

(** What [wfile.write] received: a flushed header buffer (its lines, which
    [flush_headers] joins) or a piece of body. *)
Inductive chunk : Type :=
| Headers (lines : list string)
| Body (data : string).

Definition bytes_of_chunk (c : chunk) : string :=
  match c with
  | Headers lines => String.concat "" lines
  | Body data => data
  end.

(** The attributes of a handler instance that the header protocol reads
    and writes.  [headers_buffer] is [_headers_buffer]; an absent
    attribute and an empty list are not told apart, since every
    [flush_headers] below follows an append. *)
Record handler : Type := mkHandler {
  request_version : string;
  command : string;
  close_connection : bool;
  headers_buffer : list string;
  wfile : list chunk
}.

Definition CRLF : string := String "013" (String "010" "").

Definition protocol_version : string := "HTTP/1.0".
Definition error_content_type : string := "text/html;charset=utf-8".

Definition set_buffer (b : list string) (h : handler) : handler :=
  mkHandler (request_version h) (command h) (close_connection h) b (wfile h).

Definition set_close (c : bool) (h : handler) : handler :=
  mkHandler (request_version h) (command h) c (headers_buffer h) (wfile h).

Definition write (c : chunk) (h : handler) : handler :=
  mkHandler (request_version h) (command h) (close_connection h)
            (headers_buffer h) (wfile h ++ [c]).

(** ["%s %d %s\r\n" % (self.protocol_version, code, message)]. *)
Definition status_line (code : Z) (message : string) : string :=
  protocol_version ++ " " ++ PyStr.str_of_int code ++ " " ++ message ++ CRLF.

(** [send_response_only(code, message)], with [message] already looked up. *)
Definition send_response_only (code : Z) (message : string) (h : handler)
  : handler :=
  if String.eqb (request_version h) "HTTP/0.9" then h
  else set_buffer (headers_buffer h ++ [status_line code message]) h.

(** ["%s: %s\r\n" % (keyword, value)]. *)
Definition header_line (keyword value : string) : string :=
  keyword ++ ": " ++ value ++ CRLF.

(** [send_header(keyword, value)]. *)
Definition send_header (keyword value : string) (h : handler) : handler :=
  let h1 :=
    if String.eqb (request_version h) "HTTP/0.9" then h
    else set_buffer (headers_buffer h ++ [header_line keyword value]) h in
  if String.eqb (PyStr.lower keyword) "connection" then
    if String.eqb (PyStr.lower value) "close" then set_close true h1
    else if String.eqb (PyStr.lower value) "keep-alive"
         then set_close false h1
         else h1
  else h1.

(** [flush_headers()]. *)
Definition flush_headers (h : handler) : handler :=
  set_buffer [] (write (Headers (headers_buffer h)) h).

(** [BaseHTTPRequestHandler.end_headers()]. *)
Definition end_headers (h : handler) : handler :=
  if String.eqb (request_version h) "HTTP/0.9" then h
  else flush_headers (set_buffer (headers_buffer h ++ [CRLF]) h).

(** The methods a subclass may override and the facility calls through
    [self]. *)
Record methods : Type := mkMethods {
  self_end_headers : handler -> handler
}.

Section Replies.

(** [version_string()], [date_time_string()], the [responses] table and
    the rendered, encoded error page ([error_message_format] filled in
    with the escaped message and explanation). *)
Variable version_string : string.
Variable date_time_string : string.
Variable responses : Z -> option (string * string).
Variable error_page : Z -> string -> string -> string.

Variable self : methods.

(** [send_response(code, message)]. *)
Definition send_response (code : Z) (message : string) (h : handler)
  : handler :=
  send_header "Date" date_time_string
    (send_header "Server" version_string
       (send_response_only code message h)).

(** [send_error(code, message=None, explain=None)]. *)
Definition send_error (code : Z) (message explain : option string)
           (h : handler) : handler :=
  let '(shortmsg, longmsg) :=
    match responses code with
    | Some sl => sl
    | None => ("???", "???")
    end in
  let message := match message with Some m => m | None => shortmsg end in
  let explain := match explain with Some e => e | None => longmsg end in
  let h1 := send_header "Connection" "close"
              (send_response code message h) in
  let has_body :=
    ((200 <=? code) && negb ((code =? 204) || (code =? 205)
                             || (code =? 304)))%Z in
  let body := error_page code message explain in
  let h2 :=
    if has_body
    then send_header "Content-Length"
           (PyStr.str_of_int (Z.of_nat (String.length body)))
           (send_header "Content-Type" error_content_type h1)
    else h1 in
  let h3 := self_end_headers self h2 in
  if negb (String.eqb (command h3) "HEAD") && has_body
     && negb (String.eqb body "")
  then write (Body body) h3
  else h3.

(** The shape of every other reply of the facility ([send_head],
    [list_directory]): [send_response], then [send_header] for each
    further header, then [self.end_headers()], then the body. *)
Definition reply (code : Z) (message : string)
           (headers : list (string * string)) (body : string)
           (h : handler) : handler :=
  write (Body body)
    (self_end_headers self
       (fold_left (fun h kv => send_header (fst kv) (snd kv) h) headers
          (send_response code message h))).

End Replies.

End BaseHTTPRequestHandler.

(** ** The request handler class *)

Module COOPCOEPHandler.

Import BaseHTTPRequestHandler.

(** [COOPCOEPHandler.end_headers] (serve.py, lines 23-28). *)
Definition end_headers (h : handler) : handler :=
  BaseHTTPRequestHandler.end_headers
    (send_header "Cross-Origin-Embedder-Policy" "require-corp"
       (send_header "Cross-Origin-Opener-Policy" "same-origin" h)).

Definition class : methods := mkMethods end_headers.

Section GuessType.

(** [super().guess_type]: the inherited extension-to-MIME-type lookup of
    [SimpleHTTPRequestHandler] ([extensions_map], then the [mimetypes]
    tables of the host).  It is a function of the path alone. *)
Variable super_guess_type : string -> string.

(** [COOPCOEPHandler.guess_type] (serve.py, lines 30-36). *)
Definition guess_type (path : string) : string :=
  if PyStr.endswith path ".wasm" then "application/wasm"
  else if PyStr.endswith path ".mjs" then "application/javascript"
  else super_guess_type path.

End GuessType.

End COOPCOEPHandler.

(** ** The isolation headers in what a handler wrote *)

Module Isolation.

Import BaseHTTPRequestHandler.

(** A line of a header block carries the field [name]: it starts with
    [name:], compared without regard to case, as field names are. *)
Definition is_field (name line : string) : bool :=
  String.prefix (PyStr.lower name ++ ":") (PyStr.lower line).

Definition count_field (name : string) (lines : list string) : nat :=
  List.length (filter (is_field name) lines).

Definition COOP : string := "Cross-Origin-Opener-Policy".
Definition COEP : string := "Cross-Origin-Embedder-Policy".
Definition COOP_line : string := COOP ++ ": same-origin" ++ CRLF.
Definition COEP_line : string := COEP ++ ": require-corp" ++ CRLF.

(** A line that is neither of the two fields. *)
Definition foreign (line : string) : Prop :=
  is_field COOP line = false /\ is_field COEP line = false.

(** Both headers, each exactly once and with its value. *)
Definition isolated (block : list string) : Prop :=
  count_field COOP block = 1%nat /\ In COOP_line block /\
  count_field COEP block = 1%nat /\ In COEP_line block.

Definition header_blocks (out : list chunk) : list (list string) :=
  flat_map (fun c => match c with Headers l => [l] | Body _ => [] end) out.

(** [h'] is [h] with [lines] added to the pending header buffer, and
    nothing written. *)
Definition extends (h h' : handler) (lines : list string) : Prop :=
  request_version h' = request_version h /\
  command h' = command h /\
  wfile h' = wfile h /\
  headers_buffer h' = (headers_buffer h ++ lines)%list.

(** The chunks written between the states [h] and [h']. *)
Definition written (h h' : handler) : list chunk :=
  skipn (List.length (wfile h)) (wfile h').

(** What a reply must look like for the claim: one header block, isolated. *)
Definition carries_isolation (out : list chunk) : Prop :=
  exists block, header_blocks out = [block] /\ isolated block.

End Isolation.

(** ** The process: exceptions, the outside world, the server object *)

Module Process.

(** The exceptions that reach the script. *)
Inductive exn : Type :=
| ValueError (literal : string)
| OverflowError
| OSError (errno : Z)
| KeyboardInterrupt.

Definition exn_eqb (a b : exn) : bool :=
  match a, b with
  | ValueError x, ValueError y => String.eqb x y
  | OverflowError, OverflowError => true
  | OSError x, OSError y => Z.eqb x y
  | KeyboardInterrupt, KeyboardInterrupt => true
  | _, _ => false
  end.

(** What the script does not decide: the interpreter's digit limit for
    [int], the answers of the operating system when the address is
    resolved and the socket is bound and put to listen, how many requests
    the serve loop handles and the exception that ends it ([None]: none
    ever arrives). *)
Record environment : Type := mkEnv {
  int_max_str_digits : nat;
  resolve_error : string -> option exn;
  bind_error : string -> Z -> option exn;
  requests : nat;
  interruption : option exn
}.

(** The server's socket.  [Listening host port]: the socket was bound by
    [socket.bind((host, port))] and listens.  The pair is the one given to
    [bind]; the address the system gave the socket ([getsockname()]: a
    resolved host, a port of its choice for port 0) is not part of the
    state. *)
Inductive socket_state : Type :=
| NoSocket
| Created
| Listening (host : string) (port : Z)
| Closed.

Inductive call : Type :=
| CallHTTPServer (host : string) (port : Z)
| CallServeForever
| HandleRequest
| CallShutdown.

(** The state of the process: its output streams, the one server object
    ([socket], [__is_shut_down], [__shutdown_request]) and the calls made
    on the facility, oldest first. *)
Record world : Type := mkWorld {
  stdout : list string;
  stderr : list exn;
  socket : socket_state;
  is_shut_down : bool;
  shutdown_request : bool;
  calls : list call
}.

Definition initial : world := mkWorld [] [] NoSocket false false [].

(** A computation returns, raises, or never comes back. *)
Inductive result (A : Type) : Type :=
| Ok (a : A)
| Raise (e : exn)
| Hang.
Arguments Ok {A} a.
Arguments Raise {A} e.
Arguments Hang {A}.

Definition M (A : Type) : Type := world -> result A * world.

Definition ret {A} (a : A) : M A := fun w => (Ok a, w).

Definition bind {A B} (m : M A) (k : A -> M B) : M B :=
  fun w =>
    match m w with
    | (Ok a, w') => k a w'
    | (Raise e, w') => (Raise e, w')
    | (Hang, w') => (Hang, w')
    end.

Definition raise {A} (e : exn) : M A := fun w => (Raise e, w).

(** [try: body except <e>: handler] for one exception class. *)
Definition try_except (body : M unit) (caught : exn -> bool)
           (handler : M unit) : M unit :=
  fun w =>
    match body w with
    | (Raise e, w') => if caught e then handler w' else (Raise e, w')
    | r => r
    end.

(** [try: body finally: cleanup]: the clean-up runs when the body returns
    or raises, not while it is still running. *)
Definition try_finally {A} (body : M A) (cleanup : world -> world) : M A :=
  fun w =>
    match body w with
    | (Hang, w') => (Hang, w')
    | (r, w') => (r, cleanup w')
    end.

Definition update (f : world -> world) : M unit := fun w => (Ok tt, f w).

Definition log_call (c : call) (w : world) : world :=
  mkWorld (stdout w) (stderr w) (socket w) (is_shut_down w)
          (shutdown_request w) (calls w ++ [c]).

Definition set_socket (s : socket_state) (w : world) : world :=
  mkWorld (stdout w) (stderr w) s (is_shut_down w) (shutdown_request w)
          (calls w).

Definition set_is_shut_down (b : bool) (w : world) : world :=
  mkWorld (stdout w) (stderr w) (socket w) b (shutdown_request w) (calls w).

Definition set_shutdown_request (b : bool) (w : world) : world :=
  mkWorld (stdout w) (stderr w) (socket w) (is_shut_down w) b (calls w).

Definition LF : string := String "010" "".

(** [print(s)]. *)
Definition print (s : string) : M unit :=
  update (fun w =>
    mkWorld (stdout w ++ [s ++ LF]) (stderr w) (socket w)
            (is_shut_down w) (shutdown_request w) (calls w)).

End Process.

Declare Scope py_scope.
Delimit Scope py_scope with py.
Notation "x <- m ;; k" := (Process.bind m (fun x => k))
  (at level 61, m at next level, right associativity) : py_scope.
Notation "m ;;; k" := (Process.bind m (fun _ => k))
  (at level 61, right associativity) : py_scope.

(** ** The server object ([socketserver.TCPServer], [http.server.HTTPServer]) *)

Module HTTPServer.

Import Process.
Local Open Scope py_scope.

Section Server.

Variable env : environment.

(** What [socket.bind((host, port))] and [socket.listen] raise, if anything:
    the port must fit a C [int], the host is resolved, the port must lie in
    0-65535, then the system decides. *)
Definition bind_failure (host : string) (port : Z) : option exn :=
  if ((port <? - 2147483648) || (2147483647 <? port))%Z
  then Some OverflowError
  else
    match resolve_error env host with
    | Some e => Some e
    | None =>
        if ((port <? 0) || (65535 <? port))%Z then Some OverflowError
        else bind_error env host port
    end.

(** [server_bind()] and [server_activate()]. *)
Definition server_bind (host : string) (port : Z) : M unit :=
  match bind_failure host port with
  | Some e => raise e
  | None => update (set_socket (Listening host port))
  end.

(** [server_close()]. *)
Definition server_close : world -> world := set_socket Closed.

(** [HTTPServer((host, port), RequestHandlerClass)]: [BaseServer.__init__],
    the socket is created, bound and activated; when that raises, the
    socket is closed and the exception raised again. *)
Definition new (host : string) (port : Z) : M unit :=
  update (log_call (CallHTTPServer host port)) ;;;
  update (set_is_shut_down false) ;;;
  update (set_shutdown_request false) ;;;
  update (set_socket Created) ;;;
  (fun w =>
     match server_bind host port w with
     | (Raise e, w') => (Raise e, server_close w')
     | r => r
     end).

(** The loop of [serve_forever]: the flag [__shutdown_request] is only
    set by [shutdown], which nothing calls while the loop runs, so the
    loop handles requests until an exception arrives.  Here the exception
    of the environment arrives inside the [try] of [serve_forever]; one that
    lands before it is [serve_forever_interrupted_at_entry] below. *)
Definition serve_loop : M unit :=
  fun w =>
    let w' := Nat.iter (requests env) (log_call HandleRequest) w in
    match interruption env with
    | Some e => (Raise e, w')
    | None => (Hang, w')
    end.

(** [serve_forever()]. *)
Definition serve_forever : M unit :=
  update (log_call CallServeForever) ;;;
  update (set_is_shut_down false) ;;;
  try_finally serve_loop
    (fun w => set_is_shut_down true (set_shutdown_request false w)).


(** [shutdown()]: sets the request flag and waits for [__is_shut_down];
    it deadlocks unless the loop has finished. *)
Definition shutdown : M unit :=
  update (log_call CallShutdown) ;;;
  update (set_shutdown_request true) ;;;
  (fun w => if is_shut_down w then (Ok tt, w) else (Hang, w)).

End Server.

End HTTPServer.

(** ** The script *)

Module Serve.

Import Process.
Local Open Scope py_scope.

Section Main.

Variable env : environment.

(** [int(sys.argv[1])], raising [ValueError] as [int] does. *)
Definition int (s : string) : M Z :=
  match PyStr.int (int_max_str_digits env) s with
  | Some n => ret n
  | None => raise (ValueError s)
  end.

Definition is_KeyboardInterrupt (e : exn) : bool :=
  exn_eqb e KeyboardInterrupt.

(** Lines 40-41: the port and the bind address read from [sys.argv]. *)
Definition arguments (argv : list string) : M (Z * string) :=
  port <- (if (1 <? List.length argv)%nat then int (nth 1 argv "")
           else ret 8080%Z) ;;
  bind <- ret (if (2 <? List.length argv)%nat then nth 2 argv ""
               else "127.0.0.1") ;;
  ret (port, bind).

(** [f'Serving on http://{bind}:{port} with COOP/COEP headers']. *)
Definition banner (bind : string) (port : Z) : string :=
  "Serving on http://" ++ bind ++ ":" ++ PyStr.str_of_int port
    ++ " with COOP/COEP headers".

(** Lines 43-49, for a given course of the call [server.serve_forever()]:
    the server is built, announced and run until a [KeyboardInterrupt]. *)
Definition serve_with (serve_forever : M unit) (port : Z) (bind : string)
  : M unit :=
  HTTPServer.new env bind port ;;;
  print (banner bind port) ;;;
  try_except serve_forever is_KeyboardInterrupt
    (print (String "010" "Shutting down.") ;;;
     HTTPServer.shutdown).

(** Lines 43-49, the exception of the environment arriving inside the
    serve loop. *)
Definition serve (port : Z) (bind : string) : M unit :=
  serve_with (HTTPServer.serve_forever env) port bind.

(** The [__main__] block (serve.py, lines 39-49). *)
Definition main (argv : list string) : M unit :=
  pb <- arguments argv ;;
  serve (fst pb) (snd pb).

(** How the interpreter ends: status 0 when the script runs off its end;
    an uncaught exception is reported on [stderr] and the status is 1
    (130, as the shell sees death by SIGINT, for [KeyboardInterrupt]).
    The system then closes the descriptors the process still holds. *)
Definition exit_status (e : exn) : Z :=
  match e with
  | KeyboardInterrupt => 130
  | _ => 1
  end.

Definition report (e : exn) (w : world) : world :=
  mkWorld (stdout w) (stderr w ++ [e]) (socket w) (is_shut_down w)
          (shutdown_request w) (calls w).

Definition release (w : world) : world :=
  match socket w with
  | NoSocket => w
  | _ => set_socket Closed w
  end.

(** Running the script: the exit status ([None] while the process lives)
    and the state left behind. *)
Definition run (argv : list string) : option Z * world :=
  match main argv initial with
  | (Ok _, w) => (Some 0%Z, release w)
  | (Raise e, w) => (Some (exit_status e), release (report e w))
  | (Hang, w) => (None, w)
  end.

End Main.

End Serve.

(** ** The inherited content-type lookup

    [posixpath.splitext], [mimetypes.guess_type] and
    [SimpleHTTPRequestHandler.guess_type], which the script's [guess_type]
    calls as [super().guess_type]. *)

Module Posixpath.

(** The loop of [genericpath._splitext] that skips the leading dots of the
    file name: [true] when a character other than the dot stands at an index
    from [filenameIndex] up to [dotIndex], which the loop then reaches.  The
    loop body runs at most [dotIndex - filenameIndex] times. *)
Fixpoint reaches_non_dot (steps : nat) (p : string)
         (filenameIndex dotIndex : Z) : bool :=
  match steps with
  | O => false
  | S steps' =>
      if (filenameIndex <? dotIndex)%Z then
        match String.get (Z.to_nat filenameIndex) p with
        | Some c =>
            if Ascii.eqb c "." then
              reaches_non_dot steps' p (filenameIndex + 1) dotIndex
            else true
        | None => true
        end
      else false
  end.

(** [posixpath.splitext(p)]: [genericpath._splitext(p, '/', None, '.')]. *)
Definition splitext (p : string) : string * string :=
  let sepIndex := PyStr.rfind "/" p in
  let dotIndex := PyStr.rfind "." p in
  if (sepIndex <? dotIndex)%Z
     && reaches_non_dot (Z.to_nat (dotIndex - (sepIndex + 1))) p
          (sepIndex + 1) dotIndex
  then (PyStr.upto dotIndex p, PyStr.from dotIndex p)
  else (p, "").




End Posixpath.

Module Mimetypes.

(** [urllib.parse._splittype(url)]: its pattern matches, at the start of
    [url], a run of one or more characters other than [/] and [:], a colon,
    and the rest.  [scheme_length n url]: the number of characters before
    the colon that ends such a run, [n] of which have been read. *)
Fixpoint scheme_length (n : nat) (url : string) : option nat :=
  match url with
  | EmptyString => None
  | String c rest =>
      if Ascii.eqb c ":" then (if (n =? 0)%nat then None else Some n)
      else if Ascii.eqb c "/" then None
      else scheme_length (S n) rest
  end.

Definition splittype (url : string) : option string * string :=
  match scheme_length 0 url with
  | Some n =>
      (Some (PyStr.lower (substring 0 n url)),
       substring (S n) (String.length url - S n) url)
  | None => (None, url)
  end.

(** The tables [suffix_map] and [encodings_map] of the module. *)
Definition suffix_map (ext : string) : option string :=
  if String.eqb ext ".svgz" then Some ".svg.gz"
  else if String.eqb ext ".tgz" then Some ".tar.gz"
  else if String.eqb ext ".taz" then Some ".tar.gz"
  else if String.eqb ext ".tz" then Some ".tar.gz"
  else if String.eqb ext ".tbz2" then Some ".tar.bz2"
  else if String.eqb ext ".txz" then Some ".tar.xz"
  else None.

Definition encodings_map (ext : string) : option string :=
  if String.eqb ext ".gz" then Some "gzip"
  else if String.eqb ext ".Z" then Some "compress"
  else if String.eqb ext ".bz2" then Some "bzip2"
  else if String.eqb ext ".xz" then Some "xz"
  else if String.eqb ext ".br" then Some "br"
  else None.

(** [while ext.lower() in suffix_map: base, ext = splitext(base +
    suffix_map[ext.lower()])], run for at most [rounds] rounds. *)
Fixpoint expand_suffix (rounds : nat) (base ext : string) : string * string :=
  match rounds with
  | O => (base, ext)
  | S rounds' =>
      match suffix_map (PyStr.lower ext) with
      | Some long =>
          let '(base', ext') := Posixpath.splitext (base ++ long) in
          expand_suffix rounds' base' ext'
      | None => (base, ext)
      end
  end.

(** The type of a [data:] URL, whose text after the scheme is [url]. *)
Definition data_url_type (url : string) : option string :=
  let comma := PyStr.find "," url in
  if (comma <? 0)%Z then None
  else
    let semi := PyStr.find ";" (PyStr.upto comma url) in
    let type := if (0 <=? semi)%Z then PyStr.upto semi url
                else PyStr.upto comma url in
    if (0 <=? PyStr.find "=" type)%Z || (PyStr.find "/" type <? 0)%Z
    then Some "text/plain"
    else Some type.

Section Tables.

(** The strict type table: the module's defaults and what the host's
    [mime.types] files add, keyed by extension. *)
Variable types_map : string -> option string.

(** [mimetypes.guess_type(url)], the type only.  Every long suffix of
    [suffix_map] ends in [.gz], [.bz2] or [.xz], none of them a key, so the
    suffix loop is over after one round; two are allowed. *)
Definition guess_type (url : string) : option string :=
  let '(scheme, url) := splittype url in
  if match scheme with Some sch => String.eqb sch "data" | None => false end
  then data_url_type url
  else
    let '(base, ext) := Posixpath.splitext url in
    let '(base, ext) := expand_suffix 2 base ext in
    let ext :=
      match encodings_map ext with
      | Some _ => snd (Posixpath.splitext base)
      | None => ext
      end in
    types_map (PyStr.lower ext).

End Tables.

End Mimetypes.

Module SimpleHTTPRequestHandler.

(** The class attribute [extensions_map]. *)
Definition extensions_map (ext : string) : option string :=
  if String.eqb ext ".gz" then Some "application/gzip"
  else if String.eqb ext ".Z" then Some "application/octet-stream"
  else if String.eqb ext ".bz2" then Some "application/x-bzip2"
  else if String.eqb ext ".xz" then Some "application/x-xz"
  else None.

Section Tables.

Variable types_map : string -> option string.

(** [SimpleHTTPRequestHandler.guess_type(path)]. *)
Definition guess_type (path : string) : string :=
  let ext := snd (Posixpath.splitext path) in
  match extensions_map ext with
  | Some type => type
  | None =>
      match extensions_map (PyStr.lower ext) with
      | Some type => type
      | None =>
          match Mimetypes.guess_type types_map path with
          | Some guess =>
              if String.eqb guess "" then "application/octet-stream"
              else guess
          | None => "application/octet-stream"
          end
      end
  end.

End Tables.

End SimpleHTTPRequestHandler.

(** ** Sample parameters

    A default lookup, facility strings and environments to run the
    definitions on. *)

Module Sample.

Import BaseHTTPRequestHandler Process.

Definition default_type (path : string) : string :=
  if PyStr.endswith (PyStr.lower path) ".html" then "text/html"
  else if PyStr.endswith (PyStr.lower path) ".wasm" then "application/wasm"
  else "application/octet-stream".

(** A few rows of the type table. *)
Definition types_map (ext : string) : option string :=
  if String.eqb ext ".html" then Some "text/html"
  else if String.eqb ext ".js" then Some "text/javascript"
  else if String.eqb ext ".wasm" then Some "application/wasm"
  else if String.eqb ext ".tar" then Some "application/x-tar"
  else None.

Definition version_string : string := "SimpleHTTP/0.6 Python/3.11.2".
Definition date_time_string : string := "Thu, 01 Jan 2026 00:00:00 GMT".

Definition responses (code : Z) : option (string * string) :=
  if (code =? 400)%Z
  then Some ("Bad Request", "Bad request syntax or unsupported method")
  else if (code =? 404)%Z
       then Some ("Not Found", "Nothing matches the given URI")
       else None.

Definition error_page (code : Z) (message explain : string) : string :=
  "<h1>Error response</h1><p>Error code: " ++ PyStr.str_of_int code
    ++ "</p><p>Message: " ++ message ++ ".</p>".

(** A handler that has parsed [GET /missing HTTP/1.1], and one whose request
    line was [GET / FOO/1.1]: the version could not be parsed, so
    [request_version] is still the default ["HTTP/0.9"] and [command] is
    unset. *)
Definition parsed_get : handler := mkHandler "HTTP/1.1" "GET" true [] [].
Definition bad_version : handler := mkHandler "HTTP/0.9" "" true [] [].

(** The address is free; two requests are served, then Ctrl-C. *)
Definition interrupted : environment :=
  mkEnv 4300 (fun _ => None) (fun _ _ => None) 2 (Some KeyboardInterrupt).

(** The address is taken: [EADDRINUSE]. *)
Definition address_in_use : environment :=
  mkEnv 4300 (fun _ => None) (fun _ _ => Some (OSError 98)) 0 None.

(** The address is free and no interrupt ever comes. *)
Definition serving : environment :=
  mkEnv 4300 (fun _ => None) (fun _ _ => None) 3 None.

End Sample.

(** ** Facts about Python strings *)

Lemma length_append (s t : string) :
  String.length (s ++ t) = (String.length s + String.length t)%nat.
Proof.
  induction s as [|c s IH]; simpl; [reflexivity | now rewrite IH].
Qed.

Lemma substring_all (s : string) : substring 0 (String.length s) s = s.
Proof.
  induction s as [|c s IH]; simpl; [reflexivity | now rewrite IH].
Qed.

Lemma substring_skip_app (p t : string) (m : nat) :
  substring (String.length p) m (p ++ t) = substring 0 m t.
Proof.
  induction p as [|c p IH]; simpl; [reflexivity | exact IH].
Qed.

Lemma substring_split (s : string) (k : nat) :
  (k <= String.length s)%nat ->
  s = substring 0 k s ++ substring k (String.length s - k) s.
Proof.
  revert k; induction s as [|c s IH]; intros [|k] Hk; simpl in *.
  - reflexivity.
  - lia.
  - now rewrite substring_all.
  - rewrite <- IH by lia. destruct k; reflexivity.
Qed.

(** [endswith] is the suffix relation. *)
Lemma endswith_iff (s suffix : string) :
  PyStr.endswith s suffix = true <-> exists pre, s = pre ++ suffix.
Proof.
  unfold PyStr.endswith; split.
  - destruct (Nat.leb_spec (String.length suffix) (String.length s)) as [Hle|Hlt];
      [|discriminate].
    intros Heq; apply String.eqb_eq in Heq.
    remember (String.length suffix) as m eqn:Hm.
    exists (substring 0 (String.length s - m) s).
    rewrite <- Heq.
    pose proof (substring_split s (String.length s - m)) as Hs.
    replace (String.length s - (String.length s - m))%nat with m in Hs by lia.
    apply Hs; lia.
  - intros [pre ->]. rewrite length_append.
    destruct (Nat.leb_spec (String.length suffix)
                (String.length pre + String.length suffix)) as [_|Hlt]; [|lia].
    replace (String.length pre + String.length suffix - String.length suffix)%nat
      with (String.length pre) by lia.
    rewrite substring_skip_app, substring_all. apply String.eqb_refl.
Qed.

(** Two suffixes of one string that have the same length are equal. *)
Lemma app_same_length_tail (p q a b : string) :
  String.length a = String.length b -> p ++ a = q ++ b -> a = b.
Proof.
  revert q; induction p as [|c p IH]; intros [|d q] Hlen Heq; simpl in *.
  - exact Heq.
  - apply (f_equal String.length) in Heq; simpl in Heq.
    rewrite length_append in Heq; lia.
  - apply (f_equal String.length) in Heq; simpl in Heq.
    rewrite length_append in Heq; lia.
  - injection Heq as _ Heq. eauto.
Qed.

Lemma endswith_other_suffix (pre a b : string) :
  String.length a = String.length b -> a <> b ->
  PyStr.endswith (pre ++ a) b = false.
Proof.
  intros Hlen Hne.
  destruct (PyStr.endswith (pre ++ a) b) eqn:E; [|reflexivity].
  apply endswith_iff in E as [q E].
  exfalso; apply Hne. exact (app_same_length_tail _ _ _ _ Hlen E).
Qed.

Lemma length_lower (s : string) :
  String.length (PyStr.lower s) = String.length s.
Proof.
  induction s as [|c s IH]; simpl; [reflexivity | now rewrite IH].
Qed.

Lemma app_assoc_str (a b c : string) : (a ++ b) ++ c = a ++ (b ++ c).
Proof.
  induction a as [|x a IH]; simpl; [reflexivity | now rewrite IH].
Qed.

(** A string that ends with [x ++ b] does not end with [y ++ a] when [a] and
    [b] are different strings of one length. *)
Lemma endswith_tail_clash (pre x b y a : string) :
  String.length b = String.length a -> b <> a ->
  PyStr.endswith (pre ++ x ++ b) (y ++ a) = false.
Proof.
  intros Hlen Hne.
  destruct (PyStr.endswith (pre ++ x ++ b) (y ++ a)) eqn:E; [|reflexivity].
  apply endswith_iff in E as [q E].
  rewrite <- !app_assoc_str in E.
  exfalso; apply Hne. exact (app_same_length_tail _ _ _ _ Hlen E).
Qed.

Lemma not_endswith (s suffix : string) :
  ~ (exists stem, s = stem ++ suffix) -> PyStr.endswith s suffix = false.
Proof.
  intros H. destruct (PyStr.endswith s suffix) eqn:E; [|reflexivity].
  exfalso; apply H, endswith_iff, E.
Qed.

(** ** Facts about [find], [rfind] and [splitext] *)

Lemma rfind_bounds (c : ascii) (s : string) :
  (-1 <= PyStr.rfind c s < Z.of_nat (String.length s))%Z.
Proof.
  induction s as [|d s IH]; simpl PyStr.rfind; simpl String.length.
  - lia.
  - destruct (Z.leb_spec 0 (PyStr.rfind c s)); [lia|].
    destruct (Ascii.eqb d c); lia.
Qed.

Lemma rfind_app (c : ascii) (s t : string) :
  PyStr.rfind c (s ++ t)
  = if (0 <=? PyStr.rfind c t)%Z
    then (Z.of_nat (String.length s) + PyStr.rfind c t)%Z
    else PyStr.rfind c s.
Proof.
  induction s as [|d s IH]; simpl PyStr.rfind; simpl String.length.
  - destruct (Z.leb_spec 0 (PyStr.rfind c t)); [lia|].
    pose proof (rfind_bounds c t). lia.
  - rewrite IH. destruct (Z.leb_spec 0 (PyStr.rfind c t)).
    + destruct (Z.leb_spec 0 (Z.of_nat (String.length s) + PyStr.rfind c t));
        lia.
    + reflexivity.
Qed.

Lemma get_app_right (s t : string) (k : nat) :
  String.get (String.length s + k) (s ++ t) = String.get k t.
Proof.
  induction s as [|d s IH]; simpl; [reflexivity | exact IH].
Qed.

Lemma get_app_left (s t : string) (k : nat) :
  (k < String.length s)%nat -> String.get k (s ++ t) = String.get k s.
Proof.
  revert k; induction s as [|d s IH]; intros k Hk; simpl in *; [lia|].
  destruct k; [reflexivity | apply IH; lia].
Qed.

Lemma substring_prefix (s t : string) :
  substring 0 (String.length s) (s ++ t) = s.
Proof.
  induction s as [|d s IH]; simpl.
  - now destruct t.
  - now rewrite IH.
Qed.

(** The loop that skips leading dots stops at the first other character. *)
Lemma reaches_non_dot_at (steps : nat) (p : string) (i j : Z) (k : nat)
      (c : ascii) :
  (0 <= i <= Z.of_nat k)%Z -> (Z.of_nat k < j)%Z ->
  (Z.to_nat (j - i) <= steps)%nat ->
  String.get k p = Some c -> c <> "."%char ->
  Posixpath.reaches_non_dot steps p i j = true.
Proof.
  revert i; induction steps as [|steps IH]; intros i Hi Hj Hs Hg Hc.
  - lia.
  - simpl. destruct (Z.ltb_spec i j); [|lia].
    destruct (String.get (Z.to_nat i) p) as [d|] eqn:Hd; [|reflexivity].
    destruct (Ascii.eqb_spec d ".") as [->|]; [|reflexivity].
    apply IH; try lia; try assumption.
    assert (i <> Z.of_nat k)%Z; [|lia].
    intros E. rewrite E, Nat2Z.id in Hd. congruence.
Qed.


(** [splitext] takes off an extension made of a dot and characters that are
    neither dots nor slashes, when the file name before it has a character
    other than the dot. *)
Lemma splitext_extension (stem ext : string) (k : nat) (c : ascii) :
  PyStr.rfind "." ext = 0%Z -> PyStr.rfind "/" ext = (-1)%Z ->
  (PyStr.rfind "/" stem < Z.of_nat k)%Z -> (k < String.length stem)%nat ->
  String.get k stem = Some c -> c <> "."%char ->
  Posixpath.splitext (stem ++ ext) = (stem, ext).
Proof.
  intros Hdot Hsep Hk Hlen Hg Hc.
  assert (Ed : PyStr.rfind "." (stem ++ ext)
               = Z.of_nat (String.length stem))
    by (rewrite rfind_app, Hdot; simpl; lia).
  assert (Es : PyStr.rfind "/" (stem ++ ext) = PyStr.rfind "/" stem)
    by (rewrite rfind_app, Hsep; reflexivity).
  unfold Posixpath.splitext. rewrite Ed, Es. cbv zeta.
  pose proof (rfind_bounds "/" stem) as Hb.
  destruct (Z.ltb_spec (PyStr.rfind "/" stem)
              (Z.of_nat (String.length stem))); [|lia].
  rewrite (reaches_non_dot_at _ (stem ++ ext) _ _ k c);
    try lia; try assumption.
  - simpl andb. cbv iota. unfold PyStr.upto, PyStr.from.
    rewrite Nat2Z.id, substring_prefix, length_append.
    replace (String.length stem + String.length ext - String.length stem)%nat
      with (String.length ext) by lia.
    now rewrite substring_skip_app, substring_all.
  - rewrite get_app_left by lia. exact Hg.
Qed.

(** A long suffix such as [.tar.gz] splits before its last part. *)
Lemma splitext_long_suffix (base : string) (c : ascii) (mid ext : string) :
  c <> "."%char -> PyStr.rfind "/" (String "." (String c mid)) = (-1)%Z ->
  PyStr.rfind "." ext = 0%Z -> PyStr.rfind "/" ext = (-1)%Z ->
  Posixpath.splitext (base ++ String "." (String c mid) ++ ext)
  = (base ++ String "." (String c mid), ext).
Proof.
  intros Hc Hmid Hdot Hsep. rewrite <- app_assoc_str.
  apply (splitext_extension _ ext (String.length base + 1) c);
    try assumption.
  - rewrite rfind_app, Hmid. simpl.
    pose proof (rfind_bounds "/" base). lia.
  - rewrite length_append. simpl. lia.
  - rewrite get_app_right. reflexivity.
Qed.

(** The suffix loop of [mimetypes.guess_type] is over after one round. *)
Lemma expand_suffix_settles (rounds : nat) (base ext : string) :
  Mimetypes.expand_suffix (S rounds) base ext
  = Mimetypes.expand_suffix 1 base ext.
Proof.
  simpl. unfold Mimetypes.suffix_map.
  repeat match goal with
  | |- context [if String.eqb ?a ?b then _ else _] =>
      destruct (String.eqb a b)
  end; try reflexivity;
    match goal with
    | |- context [Posixpath.splitext (base ++ ?long)] =>
        match long with
        | String "." (String ?c ?rest) =>
            let mid := eval cbv in (substring 0 2 rest) in
            let e := eval cbv in (substring 2 (String.length rest) rest) in
            change (Posixpath.splitext (base ++ long))
              with (Posixpath.splitext
                      (base ++ String "." (String c mid) ++ e));
            rewrite (splitext_long_suffix base c mid e)
              by (discriminate || reflexivity)
        end
    end;
    destruct rounds; reflexivity.
Qed.

(** ** The MIME type override *)

Section GuessTypeFacts.

Variable super_guess_type : string -> string.

Lemma guess_type_wasm (path : string) :
  PyStr.endswith path ".wasm" = true ->
  COOPCOEPHandler.guess_type super_guess_type path = "application/wasm".
Proof.
  unfold COOPCOEPHandler.guess_type. now intros ->.
Qed.

Lemma guess_type_mjs (path : string) :
  PyStr.endswith path ".wasm" = false -> PyStr.endswith path ".mjs" = true ->
  COOPCOEPHandler.guess_type super_guess_type path = "application/javascript".
Proof.
  unfold COOPCOEPHandler.guess_type. now intros -> ->.
Qed.

Lemma guess_type_default (path : string) :
  PyStr.endswith path ".wasm" = false -> PyStr.endswith path ".mjs" = false ->
  COOPCOEPHandler.guess_type super_guess_type path = super_guess_type path.
Proof.
  unfold COOPCOEPHandler.guess_type. now intros -> ->.
Qed.

(** Suffixes spelled in capitals are left to the inherited lookup. *)
Lemma capital_suffixes_use_default (stem : string) :
  COOPCOEPHandler.guess_type super_guess_type (stem ++ ".WASM")
    = super_guess_type (stem ++ ".WASM") /\
  COOPCOEPHandler.guess_type super_guess_type (stem ++ ".MJS")
    = super_guess_type (stem ++ ".MJS").
Proof.
  split; apply guess_type_default.
  - apply (endswith_tail_clash stem "" ".WASM" "" ".wasm");
      [reflexivity | discriminate].
  - apply (endswith_tail_clash stem "." "WASM" "" ".mjs");
      [reflexivity | discriminate].
  - apply (endswith_tail_clash stem "" ".MJS" "." "wasm");
      [reflexivity | discriminate].
  - apply (endswith_tail_clash stem "" ".MJS" "" ".mjs");
      [reflexivity | discriminate].
Qed.

(** C2.  Content-type resolution, for every path: ["application/wasm"] when the
    path ends with [".wasm"]; otherwise ["application/javascript"] when it ends
    with [".mjs"]; otherwise what the inherited lookup returns.  The function
    reads the path (and the inherited lookup) only: no file is opened. *)
Theorem guess_type_resolution (path : string) :
  ((exists stem, path = stem ++ ".wasm") ->
     COOPCOEPHandler.guess_type super_guess_type path = "application/wasm") /\
  (~ (exists stem, path = stem ++ ".wasm") ->
   (exists stem, path = stem ++ ".mjs") ->
     COOPCOEPHandler.guess_type super_guess_type path
       = "application/javascript") /\
  (~ (exists stem, path = stem ++ ".wasm") ->
   ~ (exists stem, path = stem ++ ".mjs") ->
     COOPCOEPHandler.guess_type super_guess_type path
       = super_guess_type path).
Proof.
  repeat split.
  - intros H. apply guess_type_wasm, endswith_iff, H.
  - intros Hw Hm. apply guess_type_mjs.
    + now apply not_endswith.
    + apply endswith_iff, Hm.
  - intros Hw Hm. apply guess_type_default; now apply not_endswith.
Qed.

(** C9.  The override compares suffixes with regard to case.  A path whose
    suffix is [".wasm"] or [".mjs"] only when case is ignored ([".WASM"],
    [".Mjs"], ...) takes neither branch: its type is the inherited lookup's
    answer for that path. *)
Theorem override_is_case_sensitive (stem suffix : string) :
  PyStr.lower suffix = ".wasm" \/ PyStr.lower suffix = ".mjs" ->
  suffix <> ".wasm" -> suffix <> ".mjs" ->
  COOPCOEPHandler.guess_type super_guess_type (stem ++ suffix)
    = super_guess_type (stem ++ suffix).
Proof.
  intros Hlow Hw Hm. apply guess_type_default.
  - destruct Hlow as [Hl|Hl].
    + apply endswith_other_suffix; [|exact Hw].
      rewrite <- (length_lower suffix), Hl. reflexivity.
    + apply (endswith_tail_clash stem "" suffix "." "wasm").
      * rewrite <- (length_lower suffix), Hl. reflexivity.
      * intros ->. discriminate Hl.
  - destruct Hlow as [Hl|Hl].
    + destruct suffix as [|c0 t]; [discriminate Hl|].
      simpl in Hl. injection Hl as _ Ht.
      apply (endswith_tail_clash stem (String c0 "") t "" ".mjs").
      * rewrite <- (length_lower t), Ht. reflexivity.
      * intros ->. discriminate Ht.
    + apply endswith_other_suffix; [|exact Hm].
      rewrite <- (length_lower suffix), Hl. reflexivity.
Qed.

End GuessTypeFacts.

(** The three branches on sample paths, with [Sample.default_type] as the
    inherited lookup. *)
Lemma guess_type_resolution_witness :
  COOPCOEPHandler.guess_type Sample.default_type "pkg/app.wasm"
    = "application/wasm" /\
  COOPCOEPHandler.guess_type Sample.default_type "lib/worker.mjs"
    = "application/javascript" /\
  COOPCOEPHandler.guess_type Sample.default_type "data.bin"
    = Sample.default_type "data.bin".
Proof.
  split; [|split].
  - apply (proj1 (guess_type_resolution Sample.default_type "pkg/app.wasm")).
    now exists "pkg/app".
  - apply (proj1 (proj2 (guess_type_resolution Sample.default_type
                           "lib/worker.mjs"))).
    + intros H. apply endswith_iff in H. vm_compute in H. discriminate H.
    + now exists "lib/worker".
  - apply (proj2 (proj2 (guess_type_resolution Sample.default_type
                           "data.bin")));
      intros H; apply endswith_iff in H; vm_compute in H; discriminate H.
Defined.

Lemma override_is_case_sensitive_witness :
  COOPCOEPHandler.guess_type Sample.default_type ("pkg/app" ++ ".WASM")
    = Sample.default_type ("pkg/app" ++ ".WASM").
Proof.
  apply (override_is_case_sensitive Sample.default_type "pkg/app" ".WASM").
  - left. vm_compute; reflexivity.
  - discriminate.
  - discriminate.
Defined.

(** ** The type of [.html] paths *)












Section HtmlType.

Variable types_map : string -> option string.



End HtmlType.



(** ** The header protocol *)

Section HeaderProtocol.

Import BaseHTTPRequestHandler Isolation.

Lemma extends_refl (h : handler) : extends h h [].
Proof.
  unfold extends; repeat split; now rewrite app_nil_r.
Qed.

Lemma extends_trans (h1 h2 h3 : handler) (l1 l2 : list string) :
  extends h1 h2 l1 -> extends h2 h3 l2 -> extends h1 h3 (l1 ++ l2).
Proof.
  intros (Hv1 & Hc1 & Hw1 & Hb1) (Hv2 & Hc2 & Hw2 & Hb2).
  unfold extends; repeat split; try congruence.
  now rewrite Hb2, Hb1, <- app_assoc.
Qed.

Lemma extends_send_header (keyword value : string) (h : handler) :
  request_version h <> "HTTP/0.9" ->
  extends h (send_header keyword value h) [header_line keyword value].
Proof.
  intros Hv. apply String.eqb_neq in Hv.
  unfold send_header; rewrite Hv.
  destruct (String.eqb (PyStr.lower keyword) "connection");
    [destruct (String.eqb (PyStr.lower value) "close");
     [|destruct (String.eqb (PyStr.lower value) "keep-alive")]|];
    unfold extends; repeat split.
Qed.

Lemma extends_send_response_only (code : Z) (message : string) (h : handler) :
  request_version h <> "HTTP/0.9" ->
  extends h (send_response_only code message h) [status_line code message].
Proof.
  intros Hv. apply String.eqb_neq in Hv.
  unfold send_response_only; rewrite Hv. unfold extends; repeat split.
Qed.

(** While the request version is HTTP/0.9 the header calls add nothing. *)
Lemma send_header_http09 (keyword value : string) (h : handler) :
  request_version h = "HTTP/0.9" ->
  extends h (send_header keyword value h) [].
Proof.
  intros Hv. unfold send_header; rewrite Hv; simpl.
  destruct (String.eqb (PyStr.lower keyword) "connection");
    [destruct (String.eqb (PyStr.lower value) "close");
     [|destruct (String.eqb (PyStr.lower value) "keep-alive")]|];
    unfold extends; simpl; repeat split; now rewrite ?app_nil_r.
Qed.

(** A header other than [Connection] only touches the buffer. *)
Lemma send_header_plain (keyword value : string) (h : handler) :
  String.eqb (PyStr.lower keyword) "connection" = false ->
  send_header keyword value h
  = if String.eqb (request_version h) "HTTP/0.9" then h
    else set_buffer (headers_buffer h ++ [header_line keyword value]) h.
Proof.
  intros E. unfold send_header. now rewrite E.
Qed.

(** What the script's [end_headers] writes: the pending lines, the two
    isolation headers and the blank line, in one block. *)
Lemma end_headers_flushes (h : handler) :
  request_version h <> "HTTP/0.9" ->
  wfile (COOPCOEPHandler.end_headers h)
    = (wfile h ++ [Headers (headers_buffer h ++ [COOP_line; COEP_line; CRLF])])%list
  /\ headers_buffer (COOPCOEPHandler.end_headers h) = []
  /\ request_version (COOPCOEPHandler.end_headers h) = request_version h
  /\ command (COOPCOEPHandler.end_headers h) = command h.
Proof.
  intros Hv. unfold COOPCOEPHandler.end_headers.
  pose proof (extends_send_header "Cross-Origin-Opener-Policy" "same-origin"
                h Hv) as E1.
  set (h1 := send_header "Cross-Origin-Opener-Policy" "same-origin" h) in *.
  assert (Hv1 : request_version h1 <> "HTTP/0.9")
    by (destruct E1 as [-> _]; exact Hv).
  pose proof (extends_trans _ _ _ _ _ E1
                (extends_send_header "Cross-Origin-Embedder-Policy"
                   "require-corp" h1 Hv1)) as (Ev & Ec & Ew & Eb).
  set (h2 := send_header "Cross-Origin-Embedder-Policy" "require-corp" h1)
    in *.
  unfold BaseHTTPRequestHandler.end_headers.
  assert (Hv2 : String.eqb (request_version h2) "HTTP/0.9" = false)
    by (apply String.eqb_neq; rewrite Ev; exact Hv).
  rewrite Hv2. unfold flush_headers, set_buffer, write;
    cbn [request_version command close_connection headers_buffer wfile].
  rewrite Ev, Ec, Ew, Eb, <- !app_assoc. repeat split.
Qed.

Lemma end_headers_http09 (h : handler) :
  request_version h = "HTTP/0.9" -> COOPCOEPHandler.end_headers h = h.
Proof.
  intros Hv. apply String.eqb_eq in Hv.
  unfold COOPCOEPHandler.end_headers, BaseHTTPRequestHandler.end_headers.
  rewrite !send_header_plain by (vm_compute; reflexivity).
  now rewrite !Hv.
Qed.

End HeaderProtocol.

Section IsolationFacts.

Import BaseHTTPRequestHandler Isolation.

Lemma count_field_app (name : string) (a b : list string) :
  count_field name (a ++ b) = (count_field name a + count_field name b)%nat.
Proof.
  unfold count_field. now rewrite filter_app, List.length_app.
Qed.

Lemma count_field_foreign (lines : list string) :
  Forall foreign lines ->
  count_field COOP lines = 0%nat /\ count_field COEP lines = 0%nat.
Proof.
  unfold count_field.
  induction 1 as [|l ls [Ho He] _ [IHo IHe]]; simpl; [now split|].
  now rewrite Ho, He.
Qed.

Lemma foreign_status_line (code : Z) (message : string) :
  foreign (status_line code message).
Proof. split; reflexivity. Qed.

Lemma foreign_facility_headers (v : string) :
  foreign (header_line "Server" v) /\ foreign (header_line "Date" v) /\
  foreign (header_line "Connection" v) /\
  foreign (header_line "Content-Type" v) /\
  foreign (header_line "Content-Length" v).
Proof. repeat split. Qed.

Lemma isolated_block (lines : list string) :
  Forall foreign lines -> isolated (lines ++ [COOP_line; COEP_line; CRLF]).
Proof.
  intros H. destruct (count_field_foreign lines H) as [Ho He].
  unfold isolated. rewrite !count_field_app, Ho, He.
  repeat split; try reflexivity; apply in_or_app; right; simpl; auto.
Qed.

Lemma written_app (h h' : handler) (out : list chunk) :
  wfile h' = (wfile h ++ out)%list -> written h h' = out.
Proof.
  intros E. unfold written. rewrite E, skipn_app, skipn_all, Nat.sub_diag.
  reflexivity.
Qed.

(** The script's [end_headers], called on a handler whose pending lines are
    the facility's: one block goes out, with both headers exactly once. *)
Lemma end_headers_isolated (h0 h : handler) (lines : list string) :
  request_version h0 <> "HTTP/0.9" ->
  Forall foreign (headers_buffer h0) ->
  extends h0 h lines -> Forall foreign lines ->
  exists block,
    wfile (COOPCOEPHandler.end_headers h) = (wfile h0 ++ [Headers block])%list
    /\ isolated block
    /\ command (COOPCOEPHandler.end_headers h) = command h0.
Proof.
  intros Hv Hp (Ev & Ec & Ew & Eb) Hl.
  destruct (end_headers_flushes h) as (Fw & _ & _ & Fc); [congruence|].
  exists (headers_buffer h ++ [COOP_line; COEP_line; CRLF])%list.
  rewrite Fw, Ew, Fc, Ec.
  split; [reflexivity | split; [|reflexivity]].
  apply isolated_block. rewrite Eb. apply Forall_app; now split.
Qed.

Section Facility.

Variables version_string date_time_string : string.
Variable responses : Z -> option (string * string).
Variable error_page : Z -> string -> string -> string.

Lemma extends_send_response (code : Z) (message : string) (h : handler) :
  request_version h <> "HTTP/0.9" ->
  extends h (send_response version_string date_time_string code message h)
    [status_line code message; header_line "Server" version_string;
     header_line "Date" date_time_string].
Proof.
  intros Hv. unfold send_response.
  pose proof (extends_send_response_only code message h Hv) as E1.
  assert (Hv1 : request_version (send_response_only code message h)
                <> "HTTP/0.9") by (destruct E1 as [-> _]; exact Hv).
  pose proof (extends_send_header "Server" version_string _ Hv1) as E2.
  assert (Hv2 : request_version
                  (send_header "Server" version_string
                     (send_response_only code message h)) <> "HTTP/0.9")
    by (destruct E2 as [-> _]; exact Hv1).
  pose proof (extends_send_header "Date" date_time_string _ Hv2) as E3.
  exact (extends_trans _ _ _ _ _ (extends_trans _ _ _ _ _ E1 E2) E3).
Qed.

Lemma extends_send_headers (headers : list (string * string)) (h : handler) :
  request_version h <> "HTTP/0.9" ->
  extends h
    (fold_left (fun h kv => send_header (fst kv) (snd kv) h) headers h)
    (map (fun kv => header_line (fst kv) (snd kv)) headers).
Proof.
  revert h; induction headers as [|[k v] hs IH]; intros h Hv; simpl.
  - apply extends_refl.
  - pose proof (extends_send_header k v h Hv) as E1.
    assert (Hv1 : request_version (send_header k v h) <> "HTTP/0.9")
      by (destruct E1 as [-> _]; exact Hv).
    exact (extends_trans _ _ _ _ _ E1 (IH _ Hv1)).
Qed.

(** The headers of an error reply are the facility's own. *)
Lemma send_error_headers (code : Z) (m : string) (with_body : bool)
      (len : string) (h : handler) :
  request_version h <> "HTTP/0.9" ->
  exists lines,
    extends h
      (if with_body
       then send_header "Content-Length" len
              (send_header "Content-Type" error_content_type
                 (send_header "Connection" "close"
                    (send_response version_string date_time_string code m h)))
       else send_header "Connection" "close"
              (send_response version_string date_time_string code m h))
      lines
    /\ Forall foreign lines.
Proof.
  intros Hv.
  pose proof (extends_send_response code m h Hv) as E0.
  assert (Hv0 : request_version
                  (send_response version_string date_time_string code m h)
                <> "HTTP/0.9") by (destruct E0 as [-> _]; exact Hv).
  pose proof (extends_trans _ _ _ _ _ E0
                (extends_send_header "Connection" "close" _ Hv0)) as E1.
  destruct with_body.
  - assert (Hv1 : request_version
                    (send_header "Connection" "close"
                       (send_response version_string date_time_string
                          code m h)) <> "HTTP/0.9")
      by (destruct E1 as [-> _]; exact Hv).
    pose proof (extends_trans _ _ _ _ _ E1
                  (extends_send_header "Content-Type" error_content_type
                     _ Hv1)) as E2.
    assert (Hv2 : request_version
                    (send_header "Content-Type" error_content_type
                       (send_header "Connection" "close"
                          (send_response version_string date_time_string
                             code m h))) <> "HTTP/0.9")
      by (destruct E2 as [-> _]; exact Hv).
    eexists; split.
    + exact (extends_trans _ _ _ _ _ E2
               (extends_send_header "Content-Length" len _ Hv2)).
    + repeat constructor.
  - eexists; split; [exact E1 | repeat constructor].
Qed.

(** After the facility's headers, [self.end_headers()] and perhaps a body. *)
Lemma end_headers_then_body (h h2 : handler) (lines : list string)
      (with_body : bool) (body : string) :
  request_version h <> "HTTP/0.9" ->
  Forall foreign (headers_buffer h) ->
  extends h h2 lines -> Forall foreign lines ->
  exists block rest,
    wfile (if with_body
           then write (Body body) (COOPCOEPHandler.end_headers h2)
           else COOPCOEPHandler.end_headers h2)
      = (wfile h ++ Headers block :: rest)%list
    /\ header_blocks rest = [] /\ isolated block.
Proof.
  intros Hv Hp E Hl.
  destruct (end_headers_isolated h h2 lines Hv Hp E Hl) as (block & Fw & Hi & _).
  exists block. destruct with_body.
  - exists [Body body]. unfold write; cbn [wfile].
    rewrite Fw, <- app_assoc. repeat split; assumption || apply Hi.
  - exists []. rewrite Fw. repeat split; assumption || apply Hi.
Qed.

(** An error reply of the facility, sent through the script's class. *)
Lemma send_error_isolated (code : Z) (message explain : option string)
      (h : handler) :
  request_version h <> "HTTP/0.9" ->
  Forall foreign (headers_buffer h) ->
  exists block rest,
    wfile (send_error version_string date_time_string responses error_page
             COOPCOEPHandler.class code message explain h)
      = (wfile h ++ Headers block :: rest)%list
    /\ header_blocks rest = [] /\ isolated block.
Proof.
  intros Hv Hp. unfold send_error.
  destruct (responses code) as [[shortmsg longmsg]|];
    set (m := match message with Some m => m | None => _ end);
    set (e := match explain with Some e => e | None => _ end);
    cbv zeta; simpl self_end_headers;
    destruct (send_error_headers code m
                ((200 <=? code) && negb ((code =? 204) || (code =? 205)
                                         || (code =? 304)))%Z
                (PyStr.str_of_int
                   (Z.of_nat (String.length (error_page code m e)))) h Hv)
      as (lines & E & Hl);
    exact (end_headers_then_body h _ lines _ _ Hv Hp E Hl).
Qed.

(** Any other reply of the facility, sent through the script's class. *)
Lemma reply_isolated (code : Z) (message : string)
      (headers : list (string * string)) (body : string) (h : handler) :
  request_version h <> "HTTP/0.9" ->
  Forall foreign (headers_buffer h) ->
  Forall (fun kv => foreign (header_line (fst kv) (snd kv))) headers ->
  exists block,
    wfile (reply version_string date_time_string COOPCOEPHandler.class
             code message headers body h)
      = (wfile h ++ [Headers block; Body body])%list
    /\ isolated block.
Proof.
  intros Hv Hp Hh. unfold reply; simpl self_end_headers.
  pose proof (extends_send_response code message h Hv) as E0.
  assert (Hv0 : request_version
                  (send_response version_string date_time_string code
                     message h) <> "HTTP/0.9")
    by (destruct E0 as [-> _]; exact Hv).
  pose proof (extends_trans _ _ _ _ _ E0
                (extends_send_headers headers _ Hv0)) as E1.
  destruct (end_headers_isolated h _ _ Hv Hp E1) as (block & Fw & Hi & _).
  - apply Forall_app; split;
      [repeat constructor | apply Forall_map; exact Hh].
  - exists block. unfold write; cbn [wfile].
    rewrite Fw, <- app_assoc. split; [reflexivity | exact Hi].
Qed.

(** While the request version is HTTP/0.9 an error reply has no header
    block: the facility's header calls and the script's [end_headers] add
    nothing, and only the page is written. *)
Lemma http09_error_reply_has_no_headers (code : Z)
      (message explain : option string) (h : handler) :
  request_version h = "HTTP/0.9" ->
  header_blocks
    (written h
       (send_error version_string date_time_string responses error_page
          COOPCOEPHandler.class code message explain h)) = [].
Proof.
  intros Hv.
  assert (Hx : forall h', extends h h' [] -> request_version h' = "HTTP/0.9")
    by (intros h' [-> _]; exact Hv).
  assert (Hs : forall k v h',
                 extends h h' [] -> extends h (send_header k v h') []).
  { intros k v h' E.
    exact (extends_trans _ _ _ _ _ E (send_header_http09 k v h' (Hx _ E))). }
  assert (E0 : forall m, extends h
                 (send_response version_string date_time_string code m h) []).
  { intros m. unfold send_response.
    assert (E : extends h (send_response_only code m h) []).
    { unfold send_response_only. apply String.eqb_eq in Hv as ->.
      apply extends_refl. }
    auto. }
  unfold send_error.
  destruct (responses code) as [[shortmsg longmsg]|];
    set (m := match message with Some m => m | None => _ end);
    set (e := match explain with Some e => e | None => _ end);
    cbv zeta; simpl self_end_headers;
    (destruct ((200 <=? code) && negb ((code =? 204) || (code =? 205)
                                       || (code =? 304)))%Z;
     match goal with
     | |- context [COOPCOEPHandler.end_headers ?h2] =>
         assert (E2 : extends h h2 []) by auto;
         rewrite (end_headers_http09 h2 (Hx _ E2));
         destruct E2 as (_ & _ & Ew & _)
     end;
     match goal with
     | |- context [if ?c then _ else _] => destruct c
     end;
     unfold written, write; cbn [wfile]; rewrite Ew;
     rewrite ?skipn_app, ?skipn_all, ?Nat.sub_diag; reflexivity).
Qed.

(** Where the facility writes a header block.  Whenever the handler's
    request version is not HTTP/0.9 and the pending header lines are the
    facility's own, every reply
    that goes through [self.end_headers()] (the facility's error replies, and
    every reply made of [send_response], further headers that are not the two
    isolation headers, [end_headers] and a body) writes one header block, in
    which [Cross-Origin-Opener-Policy: same-origin] and
    [Cross-Origin-Embedder-Policy: require-corp] each stand exactly once. *)
Theorem isolation_headers_exactly_once (h : handler) :
  request_version h <> "HTTP/0.9" ->
  Forall foreign (headers_buffer h) ->
  (forall code message explain,
      carries_isolation
        (written h
           (send_error version_string date_time_string responses error_page
              COOPCOEPHandler.class code message explain h))) /\
  (forall code message headers body,
      Forall (fun kv => foreign (header_line (fst kv) (snd kv))) headers ->
      carries_isolation
        (written h
           (reply version_string date_time_string COOPCOEPHandler.class
              code message headers body h))).
Proof.
  intros Hv Hp; split.
  - intros code message explain.
    destruct (send_error_isolated code message explain h Hv Hp)
      as (block & rest & Fw & Hr & Hi).
    rewrite (written_app _ _ _ Fw).
    exists block; split; [|exact Hi].
    simpl. now rewrite Hr.
  - intros code message headers body Hh.
    destruct (reply_isolated code message headers body h Hv Hp Hh)
      as (block & Fw & Hi).
    rewrite (written_app _ _ _ Fw).
    exists block; split; [reflexivity | exact Hi].
Qed.

End Facility.

End IsolationFacts.

(** The bytes of the reply to a request for a missing file. *)
Example not_found_reply_bytes :
  String.concat ""
    (map BaseHTTPRequestHandler.bytes_of_chunk
       (BaseHTTPRequestHandler.wfile
          (BaseHTTPRequestHandler.send_error Sample.version_string
             Sample.date_time_string Sample.responses Sample.error_page
             COOPCOEPHandler.class 404 None None Sample.parsed_get)))
  = String.concat BaseHTTPRequestHandler.CRLF
      ["HTTP/1.0 404 Not Found";
       "Server: SimpleHTTP/0.6 Python/3.11.2";
       "Date: Thu, 01 Jan 2026 00:00:00 GMT";
       "Connection: close";
       "Content-Type: text/html;charset=utf-8";
       "Content-Length: 71";
       "Cross-Origin-Opener-Policy: same-origin";
       "Cross-Origin-Embedder-Policy: require-corp";
       "";
       "<h1>Error response</h1><p>Error code: 404</p><p>Message: Not Found.</p>"].
Proof. vm_compute; reflexivity. Qed.

(** The theorem at work: the reply to a request for a missing file. *)
Lemma isolation_headers_witness :
  Isolation.carries_isolation
    (Isolation.written Sample.parsed_get
       (BaseHTTPRequestHandler.send_error Sample.version_string
          Sample.date_time_string Sample.responses Sample.error_page
          COOPCOEPHandler.class 404 None None Sample.parsed_get)).
Proof.
  refine (proj1 (isolation_headers_exactly_once Sample.version_string
                   Sample.date_time_string Sample.responses Sample.error_page
                   Sample.parsed_get _ _) 404%Z None None).
  - simpl; discriminate.
  - simpl; constructor.
Defined.

(** C1: the code at a failing input.  The class is documented to add the
    isolation headers to every response (serve.py, line 21).  A request line
    whose version cannot be parsed ([GET / FOO/1.1]) is answered by
    [send_error(400, ...)] while [request_version] still is ["HTTP/0.9"]:
    [send_response_only], [send_header] and [end_headers] then add nothing,
    and the reply is the error page alone, with no header block to carry the
    two headers. *)
Lemma http09_reply_lacks_isolation_headers :
  Isolation.written Sample.bad_version
    (BaseHTTPRequestHandler.send_error Sample.version_string
       Sample.date_time_string Sample.responses Sample.error_page
       COOPCOEPHandler.class 400 (Some "Bad request version ('FOO/1.1')")
       None Sample.bad_version)
  = [BaseHTTPRequestHandler.Body
       "<h1>Error response</h1><p>Error code: 400</p><p>Message: Bad request version ('FOO/1.1').</p>"]
  /\ ~ Isolation.carries_isolation
        (Isolation.written Sample.bad_version
           (BaseHTTPRequestHandler.send_error Sample.version_string
              Sample.date_time_string Sample.responses Sample.error_page
              COOPCOEPHandler.class 400
              (Some "Bad request version ('FOO/1.1')") None
              Sample.bad_version)).
Proof.
  split; [vm_compute; reflexivity|].
  intros (block & Hb & _). vm_compute in Hb. discriminate Hb.
Qed.

(** ** The script's run *)

Section RunFacts.

Import Process.

Variable env : environment.

Lemma iter_log_call (n : nat) (c : call) (w : world) :
  Nat.iter n (log_call c) w
  = mkWorld (stdout w) (stderr w) (socket w) (is_shut_down w)
            (shutdown_request w) (calls w ++ repeat c n).
Proof.
  induction n as [|n IH]; simpl.
  - rewrite app_nil_r. now destruct w.
  - rewrite IH. unfold log_call; simpl.
    now rewrite <- app_assoc, <- repeat_cons.
Qed.

(** Lines 40-41 read [sys.argv] and touch nothing else. *)
Lemma arguments_spec (argv : list string) (w : world) :
  Serve.arguments env argv w
  = match argv with
    | _ :: a :: rest =>
        match PyStr.int (int_max_str_digits env) a with
        | Some n =>
            (Ok (n, match rest with b :: _ => b | [] => "127.0.0.1" end), w)
        | None => (Raise (ValueError a), w)
        end
    | _ => (Ok (8080%Z, "127.0.0.1"), w)
    end.
Proof.
  destruct argv as [|prog [|a [|b rest]]]; try reflexivity;
    unfold Serve.arguments, Serve.int, bind, ret, raise; simpl;
    destruct (PyStr.int (int_max_str_digits env) a); reflexivity.
Qed.

(** The constructor either leaves a listening socket or raises with the
    socket closed; it always comes back. *)
Lemma new_outcome (host : string) (port : Z) (w : world) :
  HTTPServer.new env host port w
  = match HTTPServer.bind_failure env host port with
    | Some e =>
        (Raise e,
         mkWorld (stdout w) (stderr w) Closed false false
                 (calls w ++ [CallHTTPServer host port]))
    | None =>
        (Ok tt,
         mkWorld (stdout w) (stderr w) (Listening host port) false false
                 (calls w ++ [CallHTTPServer host port]))
    end.
Proof.
  unfold HTTPServer.new, HTTPServer.server_bind, bind, update, raise; simpl.
  destruct (HTTPServer.bind_failure env host port); reflexivity.
Qed.

(** Lines 43-49 from the initial state, by what the outside world does. *)
Lemma serve_outcome (port : Z) (host : string) :
  Serve.serve env port host initial
  = match HTTPServer.bind_failure env host port with
    | Some e =>
        (Raise e, mkWorld [] [] Closed false false [CallHTTPServer host port])
    | None =>
        let served :=
          CallHTTPServer host port :: CallServeForever
            :: repeat HandleRequest (requests env) in
        match interruption env with
        | None =>
            (Hang,
             mkWorld [Serve.banner host port ++ LF] [] (Listening host port)
                     false false served)
        | Some KeyboardInterrupt =>
            (Ok tt,
             mkWorld [Serve.banner host port ++ LF;
                      String "010" "Shutting down." ++ LF] []
                     (Listening host port) true true
                     (served ++ [CallShutdown]))
        | Some e =>
            (Raise e,
             mkWorld [Serve.banner host port ++ LF] [] (Listening host port)
                     true false served)
        end
    end.
Proof.
  unfold Serve.serve, Serve.serve_with. unfold bind at 1.
  rewrite new_outcome.
  destruct (HTTPServer.bind_failure env host port); [reflexivity|].
  unfold HTTPServer.serve_forever, HTTPServer.serve_loop, HTTPServer.shutdown,
    try_except, try_finally, bind, update, print; simpl.
  rewrite iter_log_call; simpl.
  destruct (interruption env) as [[]|]; reflexivity.
Qed.

Lemma main_after_arguments (argv : list string) (port : Z) (host : string) :
  Serve.arguments env argv initial = (Ok (port, host), initial) ->
  Serve.main env argv initial = Serve.serve env port host initial.
Proof.
  intros E. unfold Serve.main, bind. now rewrite E.
Qed.

(** Whatever happens later, the first call on the facility is the
    constructor's, and a socket it left listening stays so until the script
    ends. *)
Lemma serve_first_call (port : Z) (host : string) :
  hd_error (calls (snd (Serve.serve env port host initial)))
    = Some (CallHTTPServer host port) /\
  (HTTPServer.bind_failure env host port = None ->
   socket (snd (Serve.serve env port host initial)) = Listening host port).
Proof.
  rewrite serve_outcome.
  destruct (HTTPServer.bind_failure env host port);
    [split; [reflexivity | discriminate]|].
  destruct (interruption env) as [[]|]; split; reflexivity.
Qed.

(** C5.  Command-line parsing.  Without a first argument the port is 8080,
    without a second the bind address is ["127.0.0.1"]; a first argument is
    read as the integer port and a second is the bind address; these are the
    address the server is constructed on, and with [3000 0.0.0.0] the socket
    is bound to 0.0.0.0:3000 whenever the system lets it. *)
Theorem argument_parsing (prog : string) :
  Serve.arguments env [prog] initial
    = (Ok (8080%Z, "127.0.0.1"), initial) /\
  (forall p n,
      PyStr.int (int_max_str_digits env) p = Some n ->
      Serve.arguments env [prog; p] initial
        = (Ok (n, "127.0.0.1"), initial)) /\
  (forall p b rest n,
      PyStr.int (int_max_str_digits env) p = Some n ->
      Serve.arguments env (prog :: p :: b :: rest) initial
        = (Ok (n, b), initial)) /\
  (forall argv port host,
      Serve.arguments env argv initial = (Ok (port, host), initial) ->
      hd_error (calls (snd (Serve.main env argv initial)))
        = Some (CallHTTPServer host port)) /\
  (HTTPServer.bind_failure env "0.0.0.0" 3000 = None ->
   hd_error (calls (snd (Serve.main env [prog; "3000"; "0.0.0.0"] initial)))
     = Some (CallHTTPServer "0.0.0.0" 3000) /\
   socket (snd (Serve.main env [prog; "3000"; "0.0.0.0"] initial))
     = Listening "0.0.0.0" 3000).
Proof.
  split; [reflexivity|]. split; [|split; [|split]].
  - intros p n Hp. rewrite arguments_spec. now rewrite Hp.
  - intros p b rest n Hp. rewrite arguments_spec. now rewrite Hp.
  - intros argv port host Ha. rewrite (main_after_arguments _ _ _ Ha).
    apply serve_first_call.
  - intros Hb.
    assert (Ha : Serve.arguments env [prog; "3000"; "0.0.0.0"] initial
                 = (Ok (3000%Z, "0.0.0.0"), initial))
      by (rewrite arguments_spec; reflexivity).
    rewrite (main_after_arguments _ _ _ Ha).
    destruct (serve_first_call 3000 "0.0.0.0") as [H1 H2]. auto.
Qed.

(** C10.  A first argument that [int] accepts, whatever its value, passes
    argument parsing and reaches the server constructor unchanged; a value
    below 0 or above 65535 is turned down there, by the bind, with
    [OverflowError]. *)
Theorem port_passed_unchanged (argv : list string) (a : string) (n : Z) :
  nth_error argv 1 = Some a ->
  PyStr.int (int_max_str_digits env) a = Some n ->
  exists host,
    Serve.arguments env argv initial = (Ok (n, host), initial) /\
    hd_error (calls (snd (Serve.main env argv initial)))
      = Some (CallHTTPServer host n) /\
    ((n < 0 \/ 65535 < n)%Z -> resolve_error env host = None ->
     Serve.main env argv initial
       = (Raise OverflowError,
          mkWorld [] [] Closed false false [CallHTTPServer host n])).
Proof.
  intros Hn Hp.
  destruct argv as [|prog [|a' rest]]; try discriminate Hn.
  injection Hn as ->.
  exists (match rest with b :: _ => b | [] => "127.0.0.1" end).
  assert (Ha : Serve.arguments env (prog :: a :: rest) initial
               = (Ok (n, match rest with b :: _ => b | [] => "127.0.0.1" end),
                  initial))
    by (rewrite arguments_spec; now rewrite Hp).
  split; [exact Ha|]. rewrite (main_after_arguments _ _ _ Ha).
  split; [apply serve_first_call|].
  intros Hr Hres. rewrite serve_outcome.
  unfold HTTPServer.bind_failure. rewrite Hres.
  replace ((n <? 0) || (65535 <? n))%Z with true
    by (symmetry; apply orb_true_iff; destruct Hr; [left | right]; lia).
  now destruct ((n <? - 2147483648) || (2147483647 <? n))%Z.
Qed.

(** C6.  A first argument that is no integer, or a bind that fails, ends the
    process with a status other than 0: the exception is reported, and the
    serve loop is never entered (no request is handled, nothing is printed). *)
Theorem startup_failure_is_fatal (argv : list string) :
  (forall a,
      nth_error argv 1 = Some a ->
      PyStr.int (int_max_str_digits env) a = None ->
      Serve.run env argv
        = (Some 1%Z, mkWorld [] [ValueError a] NoSocket false false [])) /\
  (forall port host e,
      Serve.arguments env argv initial = (Ok (port, host), initial) ->
      HTTPServer.bind_failure env host port = Some e ->
      Serve.run env argv
        = (Some (Serve.exit_status e),
           mkWorld [] [e] Closed false false [CallHTTPServer host port])
      /\ Serve.exit_status e <> 0%Z).
Proof.
  split.
  - intros a Hn Hp.
    destruct argv as [|prog [|a' rest]]; try discriminate Hn.
    injection Hn as ->.
    unfold Serve.run, Serve.main, bind.
    rewrite arguments_spec, Hp. reflexivity.
  - intros port host e Ha Hb. split.
    + unfold Serve.run. rewrite (main_after_arguments _ _ _ Ha).
      rewrite serve_outcome, Hb. reflexivity.
    + destruct e; discriminate.
Qed.



End RunFacts.

(** ** Runs on sample environments *)

(** [int] on sample arguments, as CPython 3.11 answers them. *)
Example int_samples :
  map (PyStr.int 4300)
      ["3000"; " 42 "; "+5"; "-1"; "70000"; "1_000"; "007";
       "eighty"; ""; "0x10"; "1_"; "_1"; "1__0"; "- 5"; "8080.0"]
  = [Some 3000; Some 42; Some 5; Some (-1); Some 70000; Some 1000; Some 7;
     None; None; None; None; None; None; None; None]%Z.
Proof. vm_compute; reflexivity. Qed.

Lemma argument_parsing_witness :
  Process.socket
    (snd (Serve.main Sample.serving ["serve.py"; "3000"; "0.0.0.0"]
            Process.initial))
  = Process.Listening "0.0.0.0" 3000.
Proof.
  refine (proj2 (proj2 (proj2 (proj2 (proj2
            (argument_parsing Sample.serving "serve.py")))) _)).
  vm_compute; reflexivity.
Defined.

Lemma port_passed_unchanged_witness :
  (exists host,
     Serve.arguments Sample.serving ["serve.py"; "70000"] Process.initial
       = (Process.Ok (70000%Z, host), Process.initial) /\
     hd_error (Process.calls
                 (snd (Serve.main Sample.serving ["serve.py"; "70000"]
                         Process.initial)))
       = Some (Process.CallHTTPServer host 70000) /\
     ((70000 < 0 \/ 65535 < 70000)%Z ->
      Process.resolve_error Sample.serving host = None ->
      Serve.main Sample.serving ["serve.py"; "70000"] Process.initial
        = (Process.Raise Process.OverflowError,
           Process.mkWorld [] [] Process.Closed false false
             [Process.CallHTTPServer host 70000]))) /\
  (exists host,
     Serve.arguments Sample.serving ["serve.py"; "-1"; "::"] Process.initial
       = (Process.Ok ((-1)%Z, host), Process.initial) /\
     hd_error (Process.calls
                 (snd (Serve.main Sample.serving ["serve.py"; "-1"; "::"]
                         Process.initial)))
       = Some (Process.CallHTTPServer host (-1)) /\
     ((-1 < 0 \/ 65535 < -1)%Z ->
      Process.resolve_error Sample.serving host = None ->
      Serve.main Sample.serving ["serve.py"; "-1"; "::"] Process.initial
        = (Process.Raise Process.OverflowError,
           Process.mkWorld [] [] Process.Closed false false
             [Process.CallHTTPServer host (-1)]))).
Proof.
  split.
  - apply (port_passed_unchanged Sample.serving ["serve.py"; "70000"]
             "70000" 70000); vm_compute; reflexivity.
  - apply (port_passed_unchanged Sample.serving ["serve.py"; "-1"; "::"]
             "-1" (-1)); vm_compute; reflexivity.
Defined.

Lemma startup_failure_witness :
  Serve.run Sample.interrupted ["serve.py"; "eighty"]
    = (Some 1%Z,
       Process.mkWorld [] [Process.ValueError "eighty"] Process.NoSocket
         false false []) /\
  Serve.run Sample.address_in_use ["serve.py"; "8080"]
    = (Some 1%Z,
       Process.mkWorld [] [Process.OSError 98] Process.Closed false false
         [Process.CallHTTPServer "127.0.0.1" 8080]).
Proof.
  split.
  - apply (proj1 (startup_failure_is_fatal Sample.interrupted
                    ["serve.py"; "eighty"]));
      vm_compute; reflexivity.
  - apply (proj2 (startup_failure_is_fatal Sample.address_in_use
                    ["serve.py"; "8080"]) 8080%Z "127.0.0.1"
                 (Process.OSError 98));
      vm_compute; reflexivity.
Defined.



(** ** Further properties of the handler *)

Section HandlerEffects.

Import BaseHTTPRequestHandler Isolation.

Lemma append_empty_r (s : string) : s ++ "" = s.
Proof.
  induction s as [|c s IH]; simpl; [reflexivity | now rewrite IH].
Qed.

Lemma concat_empty_cons (x : string) (xs : list string) :
  String.concat "" (x :: xs) = x ++ String.concat "" xs.
Proof.
  destruct xs; simpl; [now rewrite append_empty_r | reflexivity].
Qed.

Lemma concat_empty_app (a b : list string) :
  String.concat "" (a ++ b) = String.concat "" a ++ String.concat "" b.
Proof.
  induction a as [|x a IH]; [reflexivity|].
  rewrite <- app_comm_cons, !concat_empty_cons, IH.
  now rewrite app_assoc_str.
Qed.

(** The whole effect of the script's [end_headers].  With a request version
    other than HTTP/0.9 it writes one chunk, whose bytes are the pending
    lines followed by the opener-policy line, the embedder-policy line and
    the blank line, in this order; the buffer is left empty and the request
    version, the command and the keep-alive flag are as before.  With
    HTTP/0.9 the handler is left as it was. *)
Theorem end_headers_effect (h : handler) :
  (request_version h <> "HTTP/0.9" ->
   COOPCOEPHandler.end_headers h
     = mkHandler (request_version h) (command h) (close_connection h) []
         (wfile h
            ++ [Headers (headers_buffer h ++ [COOP_line; COEP_line; CRLF])])
   /\ bytes_of_chunk
        (Headers (headers_buffer h ++ [COOP_line; COEP_line; CRLF]))
      = String.concat "" (headers_buffer h)
          ++ COOP_line ++ COEP_line ++ CRLF) /\
  (request_version h = "HTTP/0.9" -> COOPCOEPHandler.end_headers h = h).
Proof.
  split.
  - intros Hv. split.
    + apply String.eqb_neq in Hv.
      unfold COOPCOEPHandler.end_headers,
        BaseHTTPRequestHandler.end_headers.
      rewrite !send_header_plain by (vm_compute; reflexivity).
      destruct h as [v c k b w].
      cbn [request_version command close_connection headers_buffer wfile]
        in *.
      rewrite Hv.
      cbn [set_buffer request_version command close_connection
             headers_buffer wfile].
      rewrite Hv.
      cbn [set_buffer request_version command close_connection
             headers_buffer wfile].
      rewrite Hv.
      cbn [set_buffer flush_headers write request_version command
             close_connection headers_buffer wfile].
      now rewrite <- !app_assoc.
    + cbn [bytes_of_chunk]. rewrite concat_empty_app. reflexivity.
  - apply end_headers_http09.
Qed.

Lemma end_headers_effect_witness :
  COOPCOEPHandler.end_headers
    (mkHandler "HTTP/1.1" "GET" false ["HTTP/1.0 200 OK" ++ CRLF] [])
  = mkHandler "HTTP/1.1" "GET" false []
      [Headers ["HTTP/1.0 200 OK" ++ CRLF; COOP_line; COEP_line; CRLF]]
  /\ COOPCOEPHandler.end_headers Sample.bad_version = Sample.bad_version.
Proof.
  split.
  - refine (proj1 (proj1 (end_headers_effect
                            (mkHandler "HTTP/1.1" "GET" false
                               ["HTTP/1.0 200 OK" ++ CRLF] [])) _)).
    simpl; discriminate.
  - refine (proj2 (end_headers_effect Sample.bad_version) _).
    reflexivity.
Defined.

End HandlerEffects.

Section SuccessiveReplies.

Import BaseHTTPRequestHandler Isolation.

Variables version_string date_time_string : string.

(** A reply leaves the request version as it was and the header buffer
    empty: the next reply starts from a clean buffer. *)
Lemma reply_leaves_clean_buffer (code : Z) (message : string)
      (headers : list (string * string)) (body : string) (h : handler) :
  request_version h <> "HTTP/0.9" ->
  request_version
    (reply version_string date_time_string COOPCOEPHandler.class
       code message headers body h) = request_version h /\
  headers_buffer
    (reply version_string date_time_string COOPCOEPHandler.class
       code message headers body h) = [].
Proof.
  intros Hv. unfold reply; simpl self_end_headers.
  pose proof (extends_send_response version_string date_time_string
                code message h Hv) as E0.
  assert (Hv0 : request_version
                  (send_response version_string date_time_string code
                     message h) <> "HTTP/0.9")
    by (destruct E0 as [-> _]; exact Hv).
  pose proof (extends_trans _ _ _ _ _ E0
                (extends_send_headers headers _ Hv0)) as (Ev & _).
  match goal with
  | |- context [COOPCOEPHandler.end_headers ?h2] =>
      destruct (end_headers_flushes h2) as (_ & Fb & Fv & _);
        [rewrite Ev; exact Hv|];
      unfold write; cbn [request_version headers_buffer];
      rewrite Fb, Fv, Ev
  end.
  split; reflexivity.
Qed.

(** Two replies in a row on one connection: each has its own header block
    with both isolation headers exactly once; the headers of the first reply
    do not leak into the second. *)
Theorem successive_replies_each_isolated
        (h : handler)
        (code1 : Z) (message1 : string) (headers1 : list (string * string))
        (body1 : string)
        (code2 : Z) (message2 : string) (headers2 : list (string * string))
        (body2 : string) :
  request_version h <> "HTTP/0.9" ->
  Forall foreign (headers_buffer h) ->
  Forall (fun kv => foreign (header_line (fst kv) (snd kv))) headers1 ->
  Forall (fun kv => foreign (header_line (fst kv) (snd kv))) headers2 ->
  exists block1 block2,
    written h
      (reply version_string date_time_string COOPCOEPHandler.class
         code2 message2 headers2 body2
         (reply version_string date_time_string COOPCOEPHandler.class
            code1 message1 headers1 body1 h))
    = [Headers block1; Body body1; Headers block2; Body body2]
    /\ isolated block1 /\ isolated block2.
Proof.
  intros Hv Hp H1 H2.
  destruct (reply_isolated version_string date_time_string code1 message1
              headers1 body1 h Hv Hp H1) as (block1 & Fw1 & Hi1).
  destruct (reply_leaves_clean_buffer code1 message1 headers1 body1 h Hv)
    as (Ev1 & Eb1).
  set (h1 := reply version_string date_time_string COOPCOEPHandler.class
               code1 message1 headers1 body1 h) in *.
  assert (Hv1 : request_version h1 <> "HTTP/0.9") by (rewrite Ev1; exact Hv).
  assert (Hp1 : Forall foreign (headers_buffer h1))
    by (rewrite Eb1; constructor).
  destruct (reply_isolated version_string date_time_string code2 message2
              headers2 body2 h1 Hv1 Hp1 H2) as (block2 & Fw2 & Hi2).
  exists block1, block2. split; [|split; assumption].
  apply written_app. rewrite Fw2, Fw1, <- app_assoc. reflexivity.
Qed.

End SuccessiveReplies.

Lemma successive_replies_witness :
  exists block1 block2,
    Isolation.written Sample.parsed_get
      (BaseHTTPRequestHandler.reply Sample.version_string
         Sample.date_time_string COOPCOEPHandler.class
         200 "OK" [("Content-type", "application/wasm")] "wasm bytes"
         (BaseHTTPRequestHandler.reply Sample.version_string
            Sample.date_time_string COOPCOEPHandler.class
            200 "OK" [("Content-type", "text/html")] "<p>page</p>"
            Sample.parsed_get))
    = [BaseHTTPRequestHandler.Headers block1;
       BaseHTTPRequestHandler.Body "<p>page</p>";
       BaseHTTPRequestHandler.Headers block2;
       BaseHTTPRequestHandler.Body "wasm bytes"]
    /\ Isolation.isolated block1 /\ Isolation.isolated block2.
Proof.
  apply (successive_replies_each_isolated Sample.version_string
           Sample.date_time_string Sample.parsed_get).
  - simpl; discriminate.
  - simpl; constructor.
  - repeat constructor.
  - repeat constructor.
Defined.

(** ** Further properties of the MIME type override *)

(** A path shorter than four characters, the empty path included, is never
    overridden; and no path passes both suffix tests, so the order in which
    [guess_type] makes them does not matter. *)
Theorem short_paths_and_disjoint_overrides
        (super_guess_type : string -> string) (path : string) :
  ((String.length path < 4)%nat ->
   COOPCOEPHandler.guess_type super_guess_type path = super_guess_type path)
  /\
  (PyStr.endswith path ".wasm" = true -> PyStr.endswith path ".mjs" = false).
Proof.
  split.
  - intros Hlen. apply guess_type_default; unfold PyStr.endswith.
    + destruct (Nat.leb_spec (String.length ".wasm") (String.length path))
        as [H|H]; [simpl in H; lia | reflexivity].
    + destruct (Nat.leb_spec (String.length ".mjs") (String.length path))
        as [H|H]; [simpl in H; lia | reflexivity].
  - intros H. apply endswith_iff in H as [stem ->].
    apply (endswith_tail_clash stem "." "wasm" "" ".mjs");
      [reflexivity | discriminate].
Qed.

Lemma short_paths_witness :
  COOPCOEPHandler.guess_type Sample.default_type ""
    = Sample.default_type "" /\
  COOPCOEPHandler.guess_type Sample.default_type "mjs"
    = Sample.default_type "mjs" /\
  PyStr.endswith "a.mjs.wasm" ".mjs" = false.
Proof.
  split; [|split].
  - refine (proj1 (short_paths_and_disjoint_overrides
                     Sample.default_type "") _).
    simpl; lia.
  - refine (proj1 (short_paths_and_disjoint_overrides
                     Sample.default_type "mjs") _).
    simpl; lia.
  - refine (proj2 (short_paths_and_disjoint_overrides
                     Sample.default_type "a.mjs.wasm") _).
    vm_compute; reflexivity.
Defined.

(** ** Further properties of the script's run *)

Section RunOutcomes.

Import Process.

Variable env : environment.

(** Only [KeyboardInterrupt] is caught.  Any other exception that ends the
    serve loop is left uncaught: no shutdown message is printed,
    [server.shutdown()] is not called, the exception is reported and the
    status is 1. *)
Theorem other_exceptions_propagate (argv : list string) (port : Z)
        (host : string) (e : exn) :
  Serve.arguments env argv initial = (Ok (port, host), initial) ->
  HTTPServer.bind_failure env host port = None ->
  interruption env = Some e ->
  e <> KeyboardInterrupt ->
  Serve.run env argv
    = (Some 1%Z,
       mkWorld [Serve.banner host port ++ LF] [e] Closed true false
               (CallHTTPServer host port :: CallServeForever
                  :: repeat HandleRequest (requests env))).
Proof.
  intros Ha Hb Hi Hne.
  unfold Serve.run. rewrite (main_after_arguments _ _ _ _ Ha).
  rewrite serve_outcome, Hb, Hi.
  destruct e; try reflexivity. now elim Hne.
Qed.

(** The script reads [sys.argv[1]] and [sys.argv[2]] and nothing else: the
    program name and any further argument do not change the run. *)
Theorem other_arguments_ignored (prog prog' p b : string)
        (rest : list string) :
  Serve.run env (prog :: p :: b :: rest) = Serve.run env [prog'; p; b] /\
  Serve.run env [prog; p] = Serve.run env [prog'; p] /\
  Serve.run env [prog] = Serve.run env [prog'].
Proof.
  unfold Serve.run, Serve.main, bind.
  rewrite !arguments_spec. repeat split.
Qed.

End RunOutcomes.

Lemma other_exceptions_witness :
  Serve.run
    (Process.mkEnv 4300 (fun _ => None) (fun _ _ => None) 1
       (Some (Process.OSError 9)))
    ["serve.py"]
  = (Some 1%Z,
     Process.mkWorld [Serve.banner "127.0.0.1" 8080 ++ Process.LF]
       [Process.OSError 9] Process.Closed true false
       [Process.CallHTTPServer "127.0.0.1" 8080; Process.CallServeForever;
        Process.HandleRequest]).
Proof.
  apply (other_exceptions_propagate
           (Process.mkEnv 4300 (fun _ => None) (fun _ _ => None) 1
              (Some (Process.OSError 9)))
           ["serve.py"] 8080 "127.0.0.1" (Process.OSError 9));
    try (vm_compute; reflexivity).
  discriminate.
Defined.
